(** * rafter-blog: post classification, navigation and page templates

    A shallow embedding of the page queries and React page components of
    the blog (the index page [BlogIndex] and the post template
    [BlogPostTemplate]) together with the properties the specification
    states about them.

    The content nodes are the MDX documents under content/blog.  The two
    list queries of the index page select and order them; the components
    turn the query results into markup.  Markup is modelled by records
    with one field per slot of the JSX that depends on the data.

    A query is first checked against the schema the data layer infers
    from the documents, and answered only if it fits.  [Query], [Index]
    and [BlogPost] give the answers; [Build] puts the check in front of
    them. *)

From stdpp Require Import base option list sorting strings.

Local Open Scope string_scope.

(** ** Content nodes *)

Module Node.

(** [fields { slug }] *)
Record Fields := { slug : string }.

(** [frontmatter { title date type }].  [title] and [type] may be missing
    from the YAML block.  [date] is the string the node holds for the
    date: the author's text for a quoted date ('2020-04-23 09:54:54', as
    in all documents of the blog), the ISO instant for an unquoted one.
    Documents without a date are not modelled. *)
Record Frontmatter := {
  title : option string;
  date : string;
  type : option string
}.

Record Mdx := {
  fields : Fields;
  frontmatter : Frontmatter;
  excerpt : string;
  body : string
}.

Definition slug_of (n : Mdx) : string := slug (fields n).
Definition title_of (n : Mdx) : option string := title (frontmatter n).
Definition date_of (n : Mdx) : string := date (frontmatter n).
Definition type_of (n : Mdx) : option string := type (frontmatter n).

End Node.
Import Node.

(** ** The data layer: [allMdx(sort: ..., filter: ...)]

  The queries are declarative; what follows is the meaning of the two
  arguments they use, for a query the data layer has accepted (whether
  it accepts one is decided in [Build], further down).  A string filter
  is [eq] or [ne] against a constant, a missing field being different
  from every constant.  The sort compares the field values as they are
  held, here strings, character by character, not the dates they stand
  for. *)

Module Query.

Inductive StringFilter :=
| eq (v : string)
| ne (v : string).

Inductive SortOrder := ASC | DESC.

Definition matches (f : StringFilter) (x : option string) : bool :=
  match f with
  | eq v => bool_decide (x = Some v)
  | ne v => bool_decide (x ≠ Some v)
  end.

(** [precedes o a b]: the key of [a] comes strictly before the key of
    [b] in order [o]. *)
Definition precedes (o : SortOrder) (a b : string) : bool :=
  match o, String.compare a b with
  | ASC, Lt => true
  | DESC, Gt => true
  | _, _ => false
  end.

(** Modelled from the spec: no code under src/ sorts, the data layer
    does.  The query names the key and the direction; that documents
    with equal dates keep the order of the collection is the spec's
    (ties broken by original collection order).  Put [x], which stood
    before all of [l] in the collection, into the ordered list [l]:
    behind the nodes that strictly precede it, in front of its equals. *)
Fixpoint place (o : SortOrder) (x : Mdx) (l : list Mdx) : list Mdx :=
  match l with
  | [] => [x]
  | y :: l' =>
      if precedes o (date_of y) (date_of x)
      then y :: place o x l'
      else x :: l
  end.

Fixpoint orderBy (o : SortOrder) (l : list Mdx) : list Mdx :=
  match l with
  | [] => []
  | x :: l' => place o x (orderBy o l')
  end.

(** [allMdx(sort: { fields: [frontmatter___date], order: o },
            filter: { frontmatter: { type: f } })], once accepted. *)
Definition allMdx (o : SortOrder) (f : StringFilter) (nodes : list Mdx)
  : list Mdx :=
  orderBy o (filter (λ n, matches f (type_of n)) nodes).

(** [mdx(fields: { slug: { eq: $slug } })]: the first node with that
    slug, if any. *)
Definition mdx (slug : string) (nodes : list Mdx) : option Mdx :=
  snd <$> list_find (λ n, slug_of n = slug) nodes.

(** [date(formatString: ...)] replaces the raw date by its display
    form; [fmt] is the formatter of the data layer. *)
Definition formatted (fmt : string → string) (n : Mdx) : Mdx :=
  {| fields := fields n;
     frontmatter := {| title := title_of n;
                       date := fmt (date_of n);
                       type := type_of n |};
     excerpt := excerpt n;
     body := body n |}.

End Query.
Import Query.

(** ** JavaScript values that occur in the components *)

Module JS.

(** [a || b] for a nullable string [a]: [null], [undefined] and the
    empty string are falsy. *)
Definition or_else (a : option string) (b : string) : string :=
  match a with
  | Some s => if bool_decide (s = "") then b else s
  | None => b
  end.

End JS.

(** ** Markup shared by the pages *)

Module Markup.

(** [<Link to=... rel=...>text</Link>] *)
Record Link := {
  to : string;
  rel : option string;
  text : string
}.

(** Text children: [null] and [undefined] render as nothing. *)
Definition shown (s : option string) : string := default "" s.

(** The component [JournalWarning]: a fixed paragraph. *)
Definition JournalWarning : string :=
  "⚠️ Warning: This is a journal, meaning it's not polished or edited " ++
  "like regular blog posts. You can follow along with these unstructured " ++
  "thoughts as I build Rafter. I'll probably follow them up with nicer, " ++
  "succinct blog posts in the future.".

End Markup.
Import Markup.

(** ** The index page: [BlogIndex], [Journals] and their [pageQuery] *)

Module Index.

(** The two aliased selections of [pageQuery], before the field
    selection: [posts] takes the nodes whose type is not "journal",
    [journals] those whose type is, both by date string, greatest first.
    The specification calls the pair [classify].  This is the answer to
    an accepted query; [Build.classify] is the query as the build runs
    it, which may be rejected. *)
Definition classify (nodes : list Mdx) : list Mdx * list Mdx :=
  (allMdx DESC (ne "journal") nodes, allMdx DESC (eq "journal") nodes).

(** [data]: [data.site.siteMetadata.title], [data.posts.edges] and
    [data.journals.edges]. *)
Record Data := {
  siteTitle : string;
  posts : list Mdx;
  journals : list Mdx
}.

(** The fragment [postFields] reads the date through
    [date(formatString: "MMMM DD, YYYY")].  The answer to an accepted
    query; [Build.indexQuery] adds the check against the schema. *)
Definition pageQuery (fmt : string → string) (site : string)
    (nodes : list Mdx) : Data :=
  {| siteTitle := site;
     posts := formatted fmt <$> (classify nodes).1;
     journals := formatted fmt <$> (classify nodes).2 |}.

(** One [<div key=...>] of the post list. *)
Record PostEntry := {
  post_key : string;
  post_link : Link;
  post_small : string;
  post_excerpt : string
}.

(** One [<li key=...>] of the journal list. *)
Record JournalEntry := {
  journal_key : string;
  journal_link : Link
}.

Record JournalsBox := {
  box_heading : string;
  box_warning : string;
  box_entries : list JournalEntry
}.

Record Page := {
  layout_title : string;
  seo_title : string;
  post_entries : list PostEntry;
  journals_box : JournalsBox
}.

Definition post_entry (node : Mdx) : PostEntry :=
  let title := JS.or_else (title_of node) (slug_of node) in
  {| post_key := slug_of node;
     post_link := {| to := slug_of node; rel := None; text := title |};
     post_small := date_of node;
     post_excerpt := excerpt node |}.

Definition journal_entry (node : Mdx) : JournalEntry :=
  let title := JS.or_else (title_of node) (slug_of node) in
  {| journal_key := slug_of node;
     journal_link := {| to := slug_of node; rel := None; text := title |} |}.

Definition Journals (journals : list Mdx) : JournalsBox :=
  {| box_heading := "Journals";
     box_warning := JournalWarning;
     box_entries := journal_entry <$> journals |}.

Definition BlogIndex (data : Data) : Page :=
  {| layout_title := siteTitle data;
     seo_title := "All posts";
     post_entries := post_entry <$> posts data;
     journals_box := Journals (journals data) |}.

End Index.

(** ** The post template: [BlogPostTemplate] and its [pageQuery] *)

Module BlogPost.

(** [pageContext]: the query variable [slug] and the two neighbours. *)
Record PageContext := {
  slug : string;
  previous : option Mdx;
  next : option Mdx
}.

(** [data]: [data.site.siteMetadata.title] and [data.mdx], which is
    [null] when no node has the slug. *)
Record Data := {
  siteTitle : string;
  mdx : option Mdx
}.

(** The query of the template, once accepted: the document with the
    slug, its date formatted.  [Build.postQuery] adds the check against
    the schema and the excerpt of length 160. *)
Definition pageQuery (fmt : string → string) (site : string)
    (slug : string) (nodes : list Mdx) : Data :=
  {| siteTitle := site;
     mdx := formatted fmt <$> Query.mdx slug nodes |}.

Record Page := {
  layout_title : string;
  seo_title : option string;
  seo_description : string;
  (** the two children of [<h1>] *)
  h1 : string * option string;
  (** the [<p>] with the date *)
  date_line : option string;
  (** the [<div>] around [<JournalWarning />] *)
  warning_box : option string;
  mdx_body : string;
  prev_link : option Link;
  next_link : option Link
}.

Definition isJournal (post : Mdx) : bool :=
  bool_decide (type_of post = Some "journal").

Definition render (site : string) (post : Mdx) (ctx : PageContext) : Page :=
  {| layout_title := site;
     seo_title := title_of post;
     seo_description := excerpt post;
     h1 := (if isJournal post then "Journal: " else "", title_of post);
     date_line := if negb (isJournal post) then Some (date_of post) else None;
     warning_box := if isJournal post then Some JournalWarning else None;
     mdx_body := body post;
     prev_link :=
       (λ p, {| to := slug_of p; rel := Some "prev";
                text := "← " ++ shown (title_of p) |}) <$> previous ctx;
     next_link :=
       (λ n, {| to := slug_of n; rel := Some "next";
                text := shown (title_of n) ++ " →" |}) <$> next ctx |}.

(** Reading [frontmatter] off a [null] post throws: no page. *)
Definition BlogPostTemplate (data : Data) (pageContext : PageContext)
  : option Page :=
  post ← mdx data; Some (render (siteTitle data) post pageContext).

End BlogPost.

(** ** Page creation *)

Module GatsbyNode.
Import BlogPost.

(** Modelled from the spec: gatsby-node.js, which creates one page per
    document and hands the template its [pageContext], is not among the
    sources.  [previous] is the document at [index + 1] if it exists,
    [next] the document at [index - 1] if it exists. *)
Definition adjacency (posts : list Mdx) (index : nat)
  : option Mdx * option Mdx :=
  (posts !! (index + 1),
   if bool_decide (index = 0) then None else posts !! (index - 1)).

Record PageSpec := {
  path : string;
  context : PageContext
}.

(** Modelled from the spec: gatsby-node.js is missing.  The neighbours
    are computed within the [posts] partition only; the pages of journal
    entries get none. *)
Definition createPages (nodes : list Mdx) : list PageSpec :=
  let '(posts, journals) := Index.classify nodes in
  imap (λ index post,
          {| path := slug_of post;
             context := {| slug := slug_of post;
                           previous := (adjacency posts index).1;
                           next := (adjacency posts index).2 |} |}) posts
  ++ ((λ journal,
         {| path := slug_of journal;
            context := {| slug := slug_of journal;
                          previous := None;
                          next := None |} |}) <$> journals).


End GatsbyNode.

(** ** The documents under content/blog *)

Module Content.

Definition doc (slug : string) (title : string) (date : string)
    (type : option string) : Mdx :=
  {| fields := {| Node.slug := slug |};
     frontmatter := {| title := Some title; date := date; type := type |};
     excerpt := "";
     body := "" |}.

Definition what_is_rafter : Mdx :=
  doc "/what-is-rafter/" "What is Rafter?" "2020-04-23 09:54:54" None.

Definition building_commands_integration : Mdx :=
  doc "/building-commands-integration/" "Building Commands Integration"
      "2020-04-28 09:19:29" (Some "journal").

Definition tracking_queued_job_chains : Mdx :=
  doc "/tracking-queued-job-chains/" "Tracking Queued Job Chains in Laravel"
      "2020-05-05 14:52:18" None.

Definition a_spark : Mdx :=
  doc "/a-spark/" "A Spark: Why am I building Rafter?"
      "2020-04-16 10:00:00" None.

Definition blog : list Mdx :=
  [ what_is_rafter; building_commands_integration;
    tracking_queued_job_chains; a_spark ].

(** Two further posts written in the same second, and a post whose
    title is empty, to exercise ties and the title fallback. *)
Definition draft_one : Mdx :=
  doc "/draft-one/" "Draft one" "2020-04-23 09:54:54" None.

Definition draft_two : Mdx :=
  doc "/draft-two/" "Draft two" "2020-04-23 09:54:54" (Some "post").

Definition untitled : Mdx :=
  doc "/untitled/" "" "2020-03-01 08:00:00" None.

Definition drafts : list Mdx :=
  [ draft_two; tracking_queued_job_chains; untitled;
    building_commands_integration; draft_one ].

(** A post dated in the other spelling, earlier on the day of
    [what_is_rafter]. *)
Definition morning : Mdx :=
  doc "/morning/" "Morning" "2020-04-23T08:00:00" None.

Definition mixed : list Mdx :=
  [ what_is_rafter; morning; building_commands_integration ].

(** The blog before its first journal: no document has a type. *)
Definition untyped : list Mdx := [ what_is_rafter; a_spark ].

End Content.

(** ** The component [NewsletterForm] *)

Module Newsletter.

(** One [<input>] of the form: type, name and value. *)
Record Input := {
  input_type : string;
  input_name : string;
  input_value : string
}.

Record Form := {
  form_heading : string;
  action : string;
  method : string;
  target : string;
  inputs : list Input
}.

Definition NewsletterForm : Form :=
  {| form_heading := "Get Rafter news in your inbox";
     action := "https://buttondown.email/api/emails/embed-subscribe/jplhomer";
     method := "post";
     target := "popupwindow";
     inputs := [ {| input_type := "email"; input_name := "email";
                    input_value := "" |};
                 {| input_type := "hidden"; input_name := "embed";
                    input_value := "1" |};
                 {| input_type := "submit"; input_name := "";
                    input_value := "Subscribe" |} ] |}.

End Newsletter.

(** ** The component [Layout] *)

Module Layout.

(** [location]: only [pathname] is read. *)
Record Location := { pathname : string }.

(** The props [{ location, title, children, wide }]; a missing [title]
    is [None], a missing [wide] is falsy. *)
Record Props (A : Type) := {
  location : Location;
  title : option string;
  children : A;
  wide : bool
}.
Arguments location {A} _.
Arguments title {A} _.
Arguments children {A} _.
Arguments wide {A} _.

(** The header: an [<h1>] or an [<h3>] around a link to the start page. *)
Record Header := {
  tag : string;
  home : Link
}.

(** The outer [<div>]: [maxWidth] is the argument of [rhythm]. *)
Record View (A : Type) := {
  maxWidth : nat;
  header : Header;
  content : A;
  form : Newsletter.Form
}.
Arguments maxWidth {A} _.
Arguments header {A} _.
Arguments content {A} _.
Arguments form {A} _.

(** [PATH_PREFIX] is the build constant [__PATH_PREFIX__]. *)
Definition Layout {A : Type} (PATH_PREFIX : string) (props : Props A)
  : View A :=
  let rootPath := PATH_PREFIX ++ "/" in
  let header :=
    if bool_decide (pathname (location props) = rootPath)
    then {| tag := "h1";
            home := {| to := "/"; rel := None; text := shown (title props) |} |}
    else {| tag := "h3";
            home := {| to := "/"; rel := None; text := shown (title props) |} |}
  in
  {| maxWidth := if wide props then 48 else 28;
     header := header;
     content := children props;
     form := Newsletter.NewsletterForm |}.

End Layout.

(** ** The pages inside their layout, and gatsby-browser.js *)

Module Site.

(** The props of a page component: [{ data, pageContext, location }].
    They carry no [title] and no [wide]. *)
Record PageProps (D C : Type) := {
  location : Layout.Location;
  data : D;
  pageContext : C
}.
Arguments location {D C} _.
Arguments data {D C} _.
Arguments pageContext {D C} _.

(** [BlogIndex]: [<Layout location={location} title={siteTitle}>]. *)
Definition index_element (PATH_PREFIX : string)
    (props : PageProps Index.Data unit) : Layout.View Index.Page :=
  let page := Index.BlogIndex (data props) in
  Layout.Layout PATH_PREFIX
    {| Layout.location := location props;
       Layout.title := Some (Index.layout_title page);
       Layout.children := page;
       Layout.wide := false |}.

(** [BlogPostTemplate]: [<Layout location={location} title={siteTitle}>];
    there is no element when the post is [null]. *)
Definition post_element (PATH_PREFIX : string)
    (props : PageProps BlogPost.Data BlogPost.PageContext)
  : option (Layout.View BlogPost.Page) :=
  page ← BlogPost.BlogPostTemplate (data props) (pageContext props);
  Some (Layout.Layout PATH_PREFIX
          {| Layout.location := location props;
             Layout.title := Some (BlogPost.layout_title page);
             Layout.children := page;
             Layout.wide := false |}).

(** [wrapPageElement = ({ element, props }) =>
      <Layout {...props}>{element}</Layout>] *)
Definition wrapPageElement {A D C : Type} (PATH_PREFIX : string)
    (element : A) (props : PageProps D C) : Layout.View A :=
  Layout.Layout PATH_PREFIX
    {| Layout.location := location props;
       Layout.title := None;
       Layout.children := element;
       Layout.wide := false |}.

End Site.

(** ** Date strings

    The data layer takes a string for a date when it is written in one
    of the ISO 8601 spellings, and then sorts by the string all the same.
    Two of these spellings are read here, to compare the order of the
    strings with the order of the dates they stand for:
    [YYYY-MM-DD HH:mm:ss], the spelling of the blog's documents, and
    [YYYY-MM-DDTHH:mm:ss]. *)

Module Dates.

Inductive token :=
| digits (k : nat)
| lit (c : Ascii.ascii).

Definition digit (c : Ascii.ascii) : option Z :=
  let n := Z.of_N (Ascii.N_of_ascii c) in
  if bool_decide (48 ≤ n ≤ 57)%Z then Some (n - 48)%Z else None.

(** Read [k] digits, appending them to the number [acc]. *)
Fixpoint number (k : nat) (acc : Z) (s : string) : option (Z * string) :=
  match k with
  | 0 => Some (acc, s)
  | S k' =>
      match s with
      | String c s' => d ← digit c; number k' (10 * acc + d)%Z s'
      | EmptyString => None
      end
  end.

Definition expect (c : Ascii.ascii) (s : string) : option string :=
  match s with
  | String c' s' => if bool_decide (c' = c) then Some s' else None
  | EmptyString => None
  end.

Fixpoint scan (f : list token) (acc : Z) (s : string) : option (Z * string) :=
  match f with
  | [] => Some (acc, s)
  | digits k :: f' => '(v, r) ← number k acc s; scan f' v r
  | lit c :: f' => r ← expect c s; scan f' acc r
  end.

(** The digits of a string of spelling [f], read as one number. *)
Definition read (f : list token) (s : string) : option Z :=
  match scan f 0%Z s with
  | Some (v, EmptyString) => Some v
  | _ => None
  end.

(** The characters "-", ":", " " and "T". *)
Definition hyphen : Ascii.ascii := Ascii.ascii_of_nat 45.
Definition colon : Ascii.ascii := Ascii.ascii_of_nat 58.
Definition space : Ascii.ascii := Ascii.ascii_of_nat 32.
Definition tee : Ascii.ascii := Ascii.ascii_of_nat 84.

Definition date_time (sep : Ascii.ascii) : list token :=
  [ digits 4; lit hyphen; digits 2; lit hyphen; digits 2; lit sep;
    digits 2; lit colon; digits 2; lit colon; digits 2 ].

(** [YYYY-MM-DD HH:mm:ss] *)
Definition plain (s : string) : option Z := read (date_time space) s.

(** The date and time of day as the number YYYYMMDDHHmmss, which orders
    dates as the calendar does. *)
Definition stamp (s : string) : option Z :=
  match plain s with
  | Some v => Some v
  | None => read (date_time tee) s
  end.

Definition days_in_month (y m : Z) : Z :=
  if bool_decide (m = 2)%Z then
    if bool_decide ((y mod 4 = 0 ∧ y mod 100 ≠ 0) ∨ y mod 400 = 0)%Z
    then 29%Z else 28%Z
  else if bool_decide (m = 4 ∨ m = 6 ∨ m = 9 ∨ m = 11)%Z then 30%Z
  else 31%Z.

Definition in_calendar (v : Z) : bool :=
  let s := (v mod 100)%Z in
  let mi := (v / 100 mod 100)%Z in
  let h := (v / 10000 mod 100)%Z in
  let d := (v / 1000000 mod 100)%Z in
  let m := (v / 100000000 mod 100)%Z in
  let y := (v / 10000000000)%Z in
  bool_decide (1 ≤ m ≤ 12 ∧ 1 ≤ d ≤ days_in_month y m ∧
               h ≤ 23 ∧ mi ≤ 59 ∧ s ≤ 59)%Z.

(** A test for date-like strings that knows the two spellings above.
    The data layer's own test knows these and more. *)
Definition isDate (s : string) : bool :=
  match stamp s with
  | Some v => in_calendar v
  | None => false
  end.

(** [a >= b] as dates: the date of [a] is the later one or the same. *)
Definition later_or_same (a b : string) : Prop :=
  ∃ va vb, stamp a = Some va ∧ stamp b = Some vb ∧ (vb ≤ va)%Z.

End Dates.

(** ** The queries as the build runs them

    Before the data layer answers a query it checks it against the
    schema, and the schema of the frontmatter is not declared but
    inferred from the documents: a field is there when some document has
    it, and [date] is a date when every date is date-like.  Both page
    queries name [frontmatter.type] and read [date] through
    [formatString]; they are rejected, and no page is built, unless
    [type] is there and [date] is a date.  On the empty collection
    nothing is there.  [isDate] is the data layer's test for date-like
    strings. *)

Module Build.

Definition accepts (isDate : string → bool) (nodes : list Mdx) : bool :=
  existsb (λ n, bool_decide (is_Some (type_of n))) nodes
  && forallb (λ n, isDate (date_of n)) nodes.

(** The two selections of the index query, when it is accepted. *)
Definition classify (isDate : string → bool) (nodes : list Mdx)
  : option (list Mdx * list Mdx) :=
  if accepts isDate nodes then Some (Index.classify nodes) else None.

(** The index query. *)
Definition indexQuery (isDate : string → bool) (fmt : string → string)
    (site : string) (nodes : list Mdx) : option Index.Data :=
  if accepts isDate nodes then Some (Index.pageQuery fmt site nodes)
  else None.

Definition indexPage (isDate : string → bool) (fmt : string → string)
    (site : string) (nodes : list Mdx) : option Index.Page :=
  Index.BlogIndex <$> indexQuery isDate fmt site nodes.

(** [excerpt(pruneLength: 160)]: [prune] is the data layer's excerpt of a
    given length; the field [excerpt] of a node is the one of default
    length, which the index query reads. *)
Definition pruned (prune : nat → Mdx → string) (n : Mdx) : Mdx :=
  {| fields := fields n;
     frontmatter := frontmatter n;
     excerpt := prune 160 n;
     body := body n |}.

(** The query of the post template. *)
Definition postQuery (isDate : string → bool) (fmt : string → string)
    (prune : nat → Mdx → string) (site : string) (slug : string)
    (nodes : list Mdx) : option BlogPost.Data :=
  if accepts isDate nodes
  then Some {| BlogPost.siteTitle := site;
               BlogPost.mdx :=
                 (λ n, formatted fmt (pruned prune n))
                   <$> Query.mdx slug nodes |}
  else None.

(** The post page: none when the query is rejected, none when the
    template throws. *)
Definition postPage (isDate : string → bool) (fmt : string → string)
    (prune : nat → Mdx → string) (site : string) (slug : string)
    (nodes : list Mdx) (ctx : BlogPost.PageContext) : option BlogPost.Page :=
  data ← postQuery isDate fmt prune site slug nodes;
  BlogPost.BlogPostTemplate data ctx.

End Build.

(** * Properties *)

(** ** The ordering of the data layer *)

Module QueryFacts.

(** [a] may stand in front of [b] in order [o]. *)
Definition in_order (o : SortOrder) (a b : Mdx) : Prop :=
  precedes o (date_of b) (date_of a) = false.

(** The date string of [a] is not smaller than that of [b], character
    by character.  This is the order the data layer sorts by; it is the
    order of the dates among strings of one spelling ([DatesFacts]), not
    in general. *)
Definition date_ge (a b : Mdx) : Prop :=
  String.leb (date_of b) (date_of a) = true.

Lemma compare_refl (s : string) : String.compare s s = Eq.
Proof.
  pose proof (String.compare_antisym s s) as H.
  destruct (String.compare s s); simpl in H; congruence.
Qed.

Lemma precedes_irrefl o s : precedes o s s = false.
Proof. unfold precedes. rewrite compare_refl. by destruct o. Qed.

Lemma precedes_asym o a b : precedes o a b = true → precedes o b a = false.
Proof.
  unfold precedes. rewrite (String.compare_antisym a b).
  destruct o, (String.compare b a); simpl; congruence.
Qed.

Lemma precedes_ne o a b : precedes o a b = true → a ≠ b.
Proof. intros H ->. rewrite precedes_irrefl in H. discriminate. Qed.

Lemma in_order_DESC a b : in_order DESC a b ↔ date_ge a b.
Proof.
  unfold in_order, date_ge, precedes, String.leb.
  destruct (String.compare (date_of b) (date_of a)); split; congruence.
Qed.

Lemma place_Permutation o x l : place o x l ≡ₚ x :: l.
Proof.
  induction l as [|y l IH]; simpl; [done|].
  destruct (precedes o (date_of y) (date_of x)); [|done].
  rewrite IH. apply Permutation_swap.
Qed.

Lemma orderBy_Permutation o l : orderBy o l ≡ₚ l.
Proof.
  induction l as [|x l IH]; simpl; [done|].
  by rewrite place_Permutation, IH.
Qed.

Lemma place_HdRel o x y l :
  precedes o (date_of y) (date_of x) = true →
  HdRel (in_order o) y l →
  HdRel (in_order o) y (place o x l).
Proof.
  intros Hyx Hhd. destruct l as [|z l]; simpl.
  - constructor. by apply precedes_asym.
  - destruct (precedes o (date_of z) (date_of x)).
    + constructor. by inversion Hhd.
    + constructor. by apply precedes_asym.
Qed.

Lemma place_Sorted o x l :
  Sorted (in_order o) l → Sorted (in_order o) (place o x l).
Proof.
  induction 1 as [|y l Hs IH Hhd]; simpl.
  - by repeat constructor.
  - destruct (precedes o (date_of y) (date_of x)) eqn:Hyx.
    + constructor; [done|]. by apply place_HdRel.
    + constructor; [by constructor|]. by constructor.
Qed.

Lemma orderBy_Sorted o l : Sorted (in_order o) (orderBy o l).
Proof.
  induction l as [|x l IH]; simpl; [constructor|]. by apply place_Sorted.
Qed.

(** Nodes with one and the same date keep their order. *)
Lemma place_same_date o d x l :
  filter (λ n, date_of n = d) (place o x l)
  = filter (λ n, date_of n = d) (x :: l).
Proof.
  induction l as [|y l IH]; simpl; [done|].
  destruct (precedes o (date_of y) (date_of x)) eqn:Hyx; [|done].
  apply precedes_ne in Hyx.
  rewrite filter_cons, IH, !filter_cons.
  repeat case_decide; congruence.
Qed.

Lemma orderBy_same_date o d l :
  filter (λ n, date_of n = d) (orderBy o l) = filter (λ n, date_of n = d) l.
Proof.
  induction l as [|x l IH]; simpl; [done|].
  by rewrite place_same_date, !filter_cons, IH.
Qed.

Lemma Sorted_lookup_S {A} (R : relation A) l i a b :
  Sorted R l → l !! i = Some a → l !! S i = Some b → R a b.
Proof.
  intros Hs. revert i. induction Hs as [|x l Hs IH Hhd]; intros i Ha Hb.
  - done.
  - destruct i as [|i]; simpl in *.
    + injection Ha as ->. destruct Hhd as [|y l' Hxy]; [done|].
      simpl in Hb. by injection Hb as ->.
    + by eapply IH.
Qed.

(** *** The ordering is the stable sort

    Whatever algorithm the data layer runs, a result that is in order and
    keeps the nodes of every date as they stood is the list [orderBy]
    computes. *)

Lemma ascii_compare_Lt_trans (x y z : Ascii.ascii) :
  Ascii.compare x y = Lt → Ascii.compare y z = Lt → Ascii.compare x z = Lt.
Proof. unfold Ascii.compare. rewrite !N.compare_lt_iff. lia. Qed.

Lemma compare_Lt_trans (a b c : string) :
  String.compare a b = Lt → String.compare b c = Lt → String.compare a c = Lt.
Proof.
  revert b c. induction a as [|x a IH]; intros [|y b] [|z c]; simpl; try done.
  destruct (Ascii.compare x y) eqn:Hxy, (Ascii.compare y z) eqn:Hyz;
    try done.
  - apply Ascii.compare_eq_iff in Hxy as ->. rewrite Hyz. apply IH.
  - apply Ascii.compare_eq_iff in Hxy as ->. by rewrite Hyz.
  - apply Ascii.compare_eq_iff in Hyz as <-. by rewrite Hxy.
  - by rewrite (ascii_compare_Lt_trans x y z).
Qed.

Lemma precedes_trans o a b c :
  precedes o a b = true → precedes o b c = true → precedes o a c = true.
Proof.
  unfold precedes. destruct o.
  - destruct (String.compare a b) eqn:Hab, (String.compare b c) eqn:Hbc;
      try done.
    by rewrite (compare_Lt_trans a b c).
  - rewrite (String.compare_antisym a b), (String.compare_antisym b c),
      (String.compare_antisym a c).
    destruct (String.compare b a) eqn:Hba, (String.compare c b) eqn:Hcb;
      try done.
    by rewrite (compare_Lt_trans c b a).
Qed.

(** Keys that do not strictly precede one another are equal. *)
Lemma precedes_neither o a b :
  precedes o a b = false → precedes o b a = false → a = b.
Proof.
  unfold precedes. rewrite (String.compare_antisym a b).
  destruct o, (String.compare b a) eqn:Hba; simpl; try done;
    intros _ _; by apply String.compare_eq_iff in Hba.
Qed.

Global Instance in_order_trans o : Transitive (in_order o).
Proof.
  intros a b c Hab Hbc. unfold in_order in *.
  destruct (precedes o (date_of c) (date_of a)) eqn:Hca; [|done].
  destruct (precedes o (date_of c) (date_of b)) eqn:Hcb; [congruence|].
  destruct (precedes o (date_of a) (date_of b)) eqn:Hab'.
  - by rewrite (precedes_trans o _ _ _ Hca Hab') in Hcb.
  - rewrite (precedes_neither o _ _ Hab' Hab) in Hca. congruence.
Qed.

Lemma orderBy_StronglySorted o l : StronglySorted (in_order o) (orderBy o l).
Proof. apply Sorted_StronglySorted; [apply _|apply orderBy_Sorted]. Qed.

Lemma same_dates_tail (x y : Mdx) (t1 t2 : list Mdx) :
  date_of x = date_of y →
  (∀ d, filter (λ n, date_of n = d) (x :: t1)
        = filter (λ n, date_of n = d) (y :: t2)) →
  x = y ∧ ∀ d, filter (λ n, date_of n = d) t1 = filter (λ n, date_of n = d) t2.
Proof.
  intros Hxy Hd. split.
  - specialize (Hd (date_of x)).
    rewrite !filter_cons_True in Hd by done. congruence.
  - intros d. specialize (Hd d). rewrite !filter_cons in Hd.
    repeat case_decide; congruence.
Qed.

Lemma stable_sort_unique o (l1 l2 : list Mdx) :
  StronglySorted (in_order o) l1 →
  StronglySorted (in_order o) l2 →
  (∀ d, filter (λ n, date_of n = d) l1 = filter (λ n, date_of n = d) l2) →
  l1 = l2.
Proof.
  intros Hs1. revert l2.
  induction Hs1 as [|x t1 Hs1 IH Hx]; intros l2 Hs2 Hd.
  - destruct l2 as [|y t2]; [done|].
    specialize (Hd (date_of y)). by rewrite filter_cons_True in Hd.
  - destruct Hs2 as [|y t2 Hs2 Hy].
    { specialize (Hd (date_of x)). by rewrite filter_cons_True in Hd. }
    assert (date_of x = date_of y) as Hxy.
    { assert (x ∈ y :: t2) as Hin2.
      { eapply (proj1 (list_elem_of_filter (λ n, date_of n = date_of x) _ x)).
        rewrite <-Hd, filter_cons_True by done. apply list_elem_of_here. }
      assert (y ∈ x :: t1) as Hin1.
      { eapply (proj1 (list_elem_of_filter (λ n, date_of n = date_of y) _ y)).
        rewrite Hd, filter_cons_True by done. apply list_elem_of_here. }
      apply elem_of_cons in Hin2 as [->|Hin2]; [done|].
      apply elem_of_cons in Hin1 as [->|Hin1]; [done|].
      rewrite Forall_forall in Hx, Hy.
      apply (precedes_neither o); [apply Hy, Hin2|apply Hx, Hin1]. }
    destruct (same_dates_tail x y t1 t2 Hxy Hd) as [-> Hd'].
    f_equal. by apply IH.
Qed.

Lemma orderBy_unique o (l l' : list Mdx) :
  Sorted (in_order o) l' →
  (∀ d, filter (λ n, date_of n = d) l' = filter (λ n, date_of n = d) l) →
  l' = orderBy o l.
Proof.
  intros Hs Hd. apply (stable_sort_unique o).
  - by apply Sorted_StronglySorted; [apply _|].
  - apply orderBy_StronglySorted.
  - intros d. by rewrite orderBy_same_date.
Qed.

Lemma elem_of_allMdx o f nodes n :
  n ∈ allMdx o f nodes ↔ n ∈ nodes ∧ matches f (type_of n) = true.
Proof.
  unfold allMdx. rewrite orderBy_Permutation, list_elem_of_filter.
  rewrite Is_true_true. tauto.
Qed.

End QueryFacts.

(** ** The index page: the two partitions *)

Module IndexFacts.
Import QueryFacts Index.

Lemma matches_eq v x : matches (eq v) x = true ↔ x = Some v.
Proof. unfold matches. apply bool_decide_eq_true. Qed.

Lemma matches_ne v x : matches (ne v) x = true ↔ x ≠ Some v.
Proof. unfold matches. apply bool_decide_eq_true. Qed.

Lemma elem_of_posts nodes d :
  d ∈ (classify nodes).1 ↔ d ∈ nodes ∧ type_of d ≠ Some "journal".
Proof. simpl. by rewrite elem_of_allMdx, matches_ne. Qed.

Lemma elem_of_journals nodes d :
  d ∈ (classify nodes).2 ↔ d ∈ nodes ∧ type_of d = Some "journal".
Proof. simpl. by rewrite elem_of_allMdx, matches_eq. Qed.



Lemma classify_Permutation nodes :
  (classify nodes).1 ++ (classify nodes).2 ≡ₚ nodes.
Proof.
  simpl. unfold allMdx. rewrite !orderBy_Permutation.
  rewrite <-(filter_app_complement
               (λ n, matches (ne "journal") (type_of n)) nodes) at 3.
  apply Permutation_app; [done|].
  rewrite (list_filter_iff _
             (λ n, ¬ matches (ne "journal") (type_of n))); [done|].
  intros n. rewrite !Is_true_true, matches_eq, matches_ne.
  destruct (decide (type_of n = Some "journal")); tauto.
Qed.

End IndexFacts.

(** ** The index page: titles *)

Module TitleFacts.
Import Index.

Lemma or_else_spec (a : option string) (b : string) :
  (∀ t, a = Some t → t ≠ "" → JS.or_else a b = t) ∧
  (a = None ∨ a = Some "" → JS.or_else a b = b).
Proof.
  split.
  - intros t -> Ht. unfold JS.or_else. by rewrite bool_decide_eq_false_2.
  - by intros [->| ->].
Qed.

End TitleFacts.

(** ** The post page *)

Module BlogPostFacts.
Import BlogPost.

Lemma isJournal_true post : isJournal post = true ↔ type_of post = Some "journal".
Proof. apply bool_decide_eq_true. Qed.

Lemma isJournal_false post : isJournal post = false ↔ type_of post ≠ Some "journal".
Proof. apply bool_decide_eq_false. Qed.

Lemma BlogPostTemplate_Some data ctx post :
  mdx data = Some post →
  BlogPostTemplate data ctx = Some (render (siteTitle data) post ctx).
Proof. unfold BlogPostTemplate. by intros ->. Qed.

(** C9: on a post page the heading starts with the child "Journal: "
    and the warning box is there exactly for a document of type
    "journal", and the date line is there exactly for the others. *)
Theorem BlogPostTemplate_journal_marks (data : Data) (ctx : PageContext)
    (post : Mdx) (page : Page) :
  mdx data = Some post →
  BlogPostTemplate data ctx = Some page →
  ((h1 page).1 = "Journal: " ↔ type_of post = Some "journal") ∧
  (warning_box page = Some JournalWarning ↔ type_of post = Some "journal") ∧
  (is_Some (warning_box page) ↔ type_of post = Some "journal") ∧
  (is_Some (date_line page) ↔ type_of post ≠ Some "journal") ∧
  (h1 page).2 = title_of post.
Proof.
  intros Hpost Hpage.
  rewrite (BlogPostTemplate_Some _ _ _ Hpost) in Hpage.
  injection Hpage as <-. simpl.
  destruct (isJournal post) eqn:Hj; simpl;
    [apply isJournal_true in Hj | apply isJournal_false in Hj];
    split_and!; try done; split; try done; by intros [? ?].
Qed.

Lemma BlogPostTemplate_journal_marks_witness :
  let post := Content.building_commands_integration in
  let ctx := {| slug := slug_of post; previous := None; next := None |} in
  let page := render "Rafter Blog" post ctx in
  ((h1 page).1 = "Journal: " ↔ type_of post = Some "journal") ∧
  (warning_box page = Some JournalWarning ↔ type_of post = Some "journal") ∧
  (is_Some (warning_box page) ↔ type_of post = Some "journal") ∧
  (is_Some (date_line page) ↔ type_of post ≠ Some "journal") ∧
  (h1 page).2 = title_of post.
Proof.
  intros post ctx page.
  apply (BlogPostTemplate_journal_marks
           {| siteTitle := "Rafter Blog"; mdx := Some post |} ctx post page);
    reflexivity.
Defined.

End BlogPostFacts.

(** ** Navigation between posts *)

Module NavigationFacts.
Import QueryFacts IndexFacts BlogPost BlogPostFacts GatsbyNode.

Lemma slug_of_inj nodes a b :
  NoDup (slug_of <$> nodes) → a ∈ nodes → b ∈ nodes →
  slug_of a = slug_of b → a = b.
Proof.
  induction nodes as [|x l IH]; intros Hnd Ha Hb Hab.
  - by apply elem_of_nil in Ha.
  - rewrite fmap_cons in Hnd. apply NoDup_cons in Hnd as [Hx Hnd].
    apply elem_of_cons in Ha as [->|Ha], Hb as [->|Hb].
    + done.
    + destruct Hx. rewrite Hab. by apply list_elem_of_fmap_2.
    + destruct Hx. rewrite <-Hab. by apply list_elem_of_fmap_2.
    + by apply IH.
Qed.

(** With unique slugs the template's query finds the document itself. *)
Lemma mdx_of_slug nodes d :
  NoDup (slug_of <$> nodes) → d ∈ nodes →
  Query.mdx (slug_of d) nodes = Some d.
Proof.
  intros Hnd Hd. unfold Query.mdx.
  destruct (list_find_elem_of (λ n, slug_of n = slug_of d) nodes d Hd eq_refl)
    as [[i x] Hfind].
  rewrite Hfind. simpl. f_equal.
  apply list_find_Some in Hfind as (Hi & Hx & _).
  apply list_elem_of_lookup_2 in Hi. by apply (slug_of_inj nodes).
Qed.


(** C3: for the document at a valid index of the posts, [previous] is
    the document at [index + 1] and [next] the document at [index - 1],
    each absent when there is no such document: [next] at index 0,
    [previous] at the last index.  The template links to exactly these
    two. *)
Theorem adjacency_neighbours (site : string) (posts : list Mdx)
    (index : nat) (post : Mdx) :
  posts !! index = Some post →
  let previous := (adjacency posts index).1 in
  let next := (adjacency posts index).2 in
  let page := render site post
                {| slug := slug_of post; previous := previous; next := next |} in
  previous = posts !! (index + 1) ∧
  (index + 1 < length posts → is_Some previous) ∧
  (index + 1 = length posts → previous = None) ∧
  (0 < index → next = posts !! (index - 1) ∧ is_Some next) ∧
  (index = 0 → next = None) ∧
  to <$> prev_link page = slug_of <$> previous ∧
  to <$> next_link page = slug_of <$> next.
Proof.
  intros Hpost. simpl. split_and!.
  - done.
  - apply lookup_lt_is_Some_2.
  - intros Hlast. apply lookup_ge_None_2. lia.
  - intros Hpos. rewrite bool_decide_eq_false_2 by lia.
    split; [done|]. apply lookup_lt_is_Some_2.
    apply lookup_lt_Some in Hpost. lia.
  - intros ->. done.
  - by destruct (posts !! (index + 1)).
  - by destruct (if bool_decide (index = 0) then None else posts !! (index - 1)).
Qed.

Lemma adjacency_neighbours_witness :
  let posts := (Index.classify Content.blog).1 in
  let post := Content.what_is_rafter in
  let previous := (adjacency posts 1).1 in
  let next := (adjacency posts 1).2 in
  let page := render "Rafter Blog" post
                {| slug := slug_of post; previous := previous; next := next |} in
  previous = posts !! (1 + 1) ∧
  (1 + 1 < length posts → is_Some previous) ∧
  (1 + 1 = length posts → previous = None) ∧
  (0 < 1 → next = posts !! (1 - 1) ∧ is_Some next) ∧
  (1 = 0 → next = None) ∧
  to <$> prev_link page = slug_of <$> previous ∧
  to <$> next_link page = slug_of <$> next.
Proof.
  apply (adjacency_neighbours "Rafter Blog"
           (Index.classify Content.blog).1 1 Content.what_is_rafter).
  reflexivity.
Defined.



End NavigationFacts.

(** ** The blog's own documents, run through the pages *)

Module Examples.
Import Content Index BlogPost GatsbyNode.

Example classify_blog :
  classify blog
  = ([tracking_queued_job_chains; what_is_rafter; a_spark],
     [building_commands_integration]).
Proof. reflexivity. Qed.

(** Equal dates: [draft_two] stood before [draft_one] and stays there. *)
Example classify_drafts :
  classify drafts
  = ([tracking_queued_job_chains; draft_two; draft_one; untitled],
     [building_commands_integration]).
Proof. reflexivity. Qed.

Example classify_journals_only :
  classify [building_commands_integration]
  = ([], [building_commands_integration]).
Proof. reflexivity. Qed.

(** The middle one of three posts: the older one is [previous], the
    newer one [next]. *)
Example adjacency_middle :
  adjacency [tracking_queued_job_chains; what_is_rafter; a_spark] 1
  = (Some a_spark, Some tracking_queued_job_chains).
Proof. reflexivity. Qed.

Example adjacency_first :
  adjacency [tracking_queued_job_chains; what_is_rafter; a_spark] 0
  = (Some what_is_rafter, None).
Proof. reflexivity. Qed.

Example adjacency_last :
  adjacency [tracking_queued_job_chains; what_is_rafter; a_spark] 2
  = (None, Some what_is_rafter).
Proof. reflexivity. Qed.

Example pages_of_blog :
  path <$> createPages blog
  = ["/tracking-queued-job-chains/"; "/what-is-rafter/"; "/a-spark/";
     "/building-commands-integration/"].
Proof. reflexivity. Qed.

Example index_titles_of_drafts :
  (λ e, text (post_link e))
    <$> post_entries (BlogIndex (Index.pageQuery id "Rafter Blog" drafts))
  = ["Tracking Queued Job Chains in Laravel"; "Draft two"; "Draft one";
     "/untitled/"].
Proof. reflexivity. Qed.

End Examples.

(** ** Further properties of the two list queries *)

Module ListingFacts.
Import QueryFacts IndexFacts Index.

Lemma StronglySorted_lookup_lt {A} (R : relation A) l i j a b :
  StronglySorted R l → i < j →
  l !! i = Some a → l !! j = Some b → R a b.
Proof.
  intros Hs. revert i j. induction Hs as [|x l Hs IH Hx]; intros i j Hij Ha Hb.
  - done.
  - destruct j as [|j]; [lia|]. simpl in Hb. destruct i as [|i]; simpl in Ha.
    + injection Ha as ->. rewrite Forall_forall in Hx.
      apply Hx. by eapply list_elem_of_lookup_2.
    + apply (IH i j); [lia|done..].
Qed.

Lemma filter_all {A} (P : A → Prop) `{!∀ x, Decision (P x)} (l : list A) :
  (∀ x, x ∈ l → P x) → filter P l = l.
Proof.
  induction l as [|x l IH]; intros Hall; [done|].
  rewrite filter_cons_True by (apply Hall; left).
  f_equal. apply IH. intros y Hy. apply Hall. by right.
Qed.

Lemma filter_none {A} (P : A → Prop) `{!∀ x, Decision (P x)} (l : list A) :
  (∀ x, x ∈ l → ¬ P x) → filter P l = [].
Proof.
  induction l as [|x l IH]; intros Hall; [done|].
  rewrite filter_cons_False by (apply Hall; left).
  apply IH. intros y Hy. apply Hall. by right.
Qed.

(** A list that is in order already is left as it is. *)
Lemma orderBy_Sorted_id o l : Sorted (in_order o) l → orderBy o l = l.
Proof. intros Hs. symmetry. by apply orderBy_unique. Qed.

Lemma allMdx_allMdx_same o f nodes :
  allMdx o f (allMdx o f nodes) = allMdx o f nodes.
Proof.
  unfold allMdx at 1. rewrite filter_all.
  - apply orderBy_Sorted_id. apply orderBy_Sorted.
  - intros n Hn. apply elem_of_allMdx in Hn as [_ Hn]. by apply Is_true_true.
Qed.

Lemma allMdx_allMdx_other o v nodes :
  allMdx o (eq v) (allMdx o (ne v) nodes) = [] ∧
  allMdx o (ne v) (allMdx o (eq v) nodes) = [].
Proof.
  split; unfold allMdx at 1; rewrite filter_none; try done;
    intros n Hn Hm; apply Is_true_true in Hm;
    apply elem_of_allMdx in Hn as [_ Hn].
  - apply matches_eq in Hm. by apply matches_ne in Hn.
  - apply matches_ne in Hm. by apply matches_eq in Hn.
Qed.

(** Among nodes of distinct dates at most one has a given date. *)
Lemma same_date_at_most_one (l : list Mdx) d :
  NoDup (date_of <$> l) → (length (filter (λ n, date_of n = d) l) ≤ 1)%nat.
Proof.
  induction l as [|x l IH]; intros Hnd; [simpl; lia|].
  rewrite fmap_cons in Hnd. apply NoDup_cons in Hnd as [Hx Hnd].
  rewrite filter_cons. case_decide as Hd; [|by apply IH].
  rewrite filter_none; [simpl; lia|].
  intros y Hy Hyd. apply Hx. rewrite Hd, <-Hyd.
  by apply list_elem_of_fmap_2.
Qed.

Lemma short_Permutation {A} (l k : list A) :
  (length l ≤ 1)%nat → l ≡ₚ k → l = k.
Proof.
  destruct l as [|x [|y l]]; simpl; intros Hlen Hperm.
  - by apply Permutation_nil_l.
  - by apply Permutation_singleton_l.
  - lia.
Qed.

Lemma orderBy_Permutation_distinct o (l k : list Mdx) :
  NoDup (date_of <$> l) → l ≡ₚ k → orderBy o l = orderBy o k.
Proof.
  intros Hnd Hperm. apply (stable_sort_unique o);
    [apply orderBy_StronglySorted..|].
  intros d. rewrite !orderBy_same_date.
  apply short_Permutation; [by apply same_date_at_most_one|].
  by rewrite Hperm.
Qed.

Lemma allMdx_Permutation_distinct o f (nodes nodes' : list Mdx) :
  NoDup (date_of <$> nodes) → nodes ≡ₚ nodes' →
  allMdx o f nodes = allMdx o f nodes'.
Proof.
  intros Hnd Hperm. unfold allMdx. apply orderBy_Permutation_distinct.
  - eapply sublist_NoDup; [exact Hnd|].
    apply fmap_sublist, sublist_filter.
  - by rewrite Hperm.
Qed.

(** X6: when no two documents have the same date, the two partitions do
    not depend on the order in which the collection holds the
    documents. *)
Theorem classify_order_independent (nodes nodes' : list Mdx) :
  NoDup (date_of <$> nodes) →
  nodes ≡ₚ nodes' →
  classify nodes = classify nodes'.
Proof.
  intros Hnd Hperm. unfold classify.
  by rewrite !(allMdx_Permutation_distinct _ _ nodes nodes').
Qed.

Lemma classify_order_independent_witness :
  classify Content.blog = classify (reverse Content.blog).
Proof.
  apply (classify_order_independent Content.blog (reverse Content.blog)).
  - apply (bool_decide_unpack _). vm_compute. exact I.
  - by rewrite reverse_Permutation.
Defined.

End ListingFacts.

(** ** Further properties of the index page *)

Module IndexPageFacts.
Import QueryFacts IndexFacts Index.

Lemma post_keys fmt site nodes :
  post_key <$> post_entries (BlogIndex (pageQuery fmt site nodes))
  = slug_of <$> (classify nodes).1.
Proof.
  unfold BlogIndex, pageQuery; cbn [post_entries posts].
  rewrite <-!list_fmap_compose. by apply list_fmap_ext.
Qed.

Lemma journal_keys fmt site nodes :
  journal_key <$> box_entries (journals_box (BlogIndex (pageQuery fmt site nodes)))
  = slug_of <$> (classify nodes).2.
Proof.
  unfold BlogIndex, Journals, pageQuery;
    cbn [journals_box box_entries journals].
  rewrite <-!list_fmap_compose. by apply list_fmap_ext.
Qed.

Lemma index_keys_Permutation fmt site nodes :
  let page := BlogIndex (pageQuery fmt site nodes) in
  (post_key <$> post_entries page)
    ++ (journal_key <$> box_entries (journals_box page))
  ≡ₚ slug_of <$> nodes.
Proof.
  intros page. unfold page.
  rewrite post_keys, journal_keys, <-fmap_app.
  by rewrite classify_Permutation.
Qed.

Lemma or_else_nonempty (a : option string) (b : string) :
  b ≠ "" → JS.or_else a b ≠ "".
Proof.
  intros Hb. unfold JS.or_else. destruct a as [s|]; [|done].
  by case_bool_decide.
Qed.

(** X2: with unique slugs the React keys on the index page are unique:
    no key occurs twice in the post list or in the journal list, and no
    key occurs in both. *)
Theorem index_keys_unique (fmt : string → string) (site : string)
    (nodes : list Mdx) :
  NoDup (slug_of <$> nodes) →
  let page := BlogIndex (pageQuery fmt site nodes) in
  NoDup (post_key <$> post_entries page) ∧
  NoDup (journal_key <$> box_entries (journals_box page)) ∧
  ∀ k, k ∈ post_key <$> post_entries page →
       k ∉ journal_key <$> box_entries (journals_box page).
Proof.
  intros Hnd page.
  rewrite <-(index_keys_Permutation fmt site nodes) in Hnd.
  apply NoDup_app in Hnd as (Hp & Hdisj & Hj). done.
Qed.

Lemma index_keys_unique_witness :
  let page := BlogIndex (pageQuery id "Rafter Blog" Content.drafts) in
  NoDup (post_key <$> post_entries page) ∧
  NoDup (journal_key <$> box_entries (journals_box page)) ∧
  ∀ k, k ∈ post_key <$> post_entries page →
       k ∉ journal_key <$> box_entries (journals_box page).
Proof.
  apply (index_keys_unique id "Rafter Blog" Content.drafts).
  apply (bool_decide_unpack _). vm_compute. exact I.
Defined.

(** X10: a link on the index page is never without text when the slug
    of its document is not empty, whatever the title. *)
Theorem index_link_text_nonempty (data : Data) (link : Link) :
  (∀ node, node ∈ (posts data ++ journals data)%list → slug_of node ≠ "") →
  link ∈ ((post_link <$> post_entries (BlogIndex data))
          ++ (journal_link <$> box_entries (journals_box (BlogIndex data))))%list →
  text link ≠ "".
Proof.
  intros Hslug Hlink.
  unfold BlogIndex, Journals in Hlink;
    cbn [post_entries journals_box box_entries] in Hlink.
  rewrite <-!list_fmap_compose in Hlink.
  apply elem_of_app in Hlink as [Hlink|Hlink];
    apply list_elem_of_fmap in Hlink as (node & -> & Hnode); simpl;
    apply or_else_nonempty, Hslug, elem_of_app; [by left|by right].
Qed.

Lemma index_link_text_nonempty_witness :
  text {| to := "/untitled/"; rel := None; text := "/untitled/" |} ≠ "".
Proof.
  apply (index_link_text_nonempty
           {| siteTitle := "Rafter Blog";
              posts := [Content.untitled; Content.a_spark];
              journals := [Content.building_commands_integration] |}).
  - intros node Hnode. simpl in Hnode.
    repeat (apply elem_of_cons in Hnode as [->|Hnode]; [done|]).
    by apply elem_of_nil in Hnode.
  - simpl. apply list_elem_of_here.
Defined.

End IndexPageFacts.

(** ** Further properties of the post template *)

Module PostPageFacts.
Import BlogPost BlogPostFacts NavigationFacts.

Lemma mdx_None slug nodes :
  Query.mdx slug nodes = None ↔ slug ∉ slug_of <$> nodes.
Proof.
  unfold Query.mdx. rewrite fmap_None, list_find_None, Forall_forall.
  split.
  - intros Hall (n & -> & Hn)%list_elem_of_fmap. by apply (Hall n).
  - intros Hnot n Hn Hslug. apply Hnot. rewrite <-Hslug.
    by apply list_elem_of_fmap_2.
Qed.

Lemma mdx_Some slug nodes d :
  Query.mdx slug nodes = Some d → d ∈ nodes ∧ slug_of d = slug.
Proof.
  unfold Query.mdx. intros ([i x] & Hfind & ->)%fmap_Some. simpl.
  apply list_find_Some in Hfind as (Hi & Hx & _).
  split; [by eapply list_elem_of_lookup_2|done].
Qed.

End PostPageFacts.

(** ** The layout around the pages *)

Module LayoutFacts.
Import Layout.

Lemma append_cancel (p a b : string) : p ++ a = p ++ b → a = b.
Proof. induction p as [|c p IH]; simpl; [done|]. intros [= H]. by apply IH. Qed.

Lemma Layout_tag {A} prefix (props : Props A) :
  tag (header (Layout prefix props))
  = if bool_decide (pathname (location props) = prefix ++ "/")
    then "h1" else "h3".
Proof. unfold Layout. simpl. by case_bool_decide. Qed.

Lemma Layout_home {A} prefix (props : Props A) :
  home (header (Layout prefix props))
  = {| to := "/"; rel := None; text := shown (title props) |}.
Proof. unfold Layout. simpl. by case_bool_decide. Qed.

(** X11: a page served at the path prefix followed by [path] carries
    the site title as [<h1>] exactly when [path] is "/", and as [<h3>]
    otherwise; in both cases the title links to "/". *)
Theorem Layout_header_level {A : Type} (prefix path : string)
    (props : Props A) :
  pathname (location props) = prefix ++ path →
  let view := Layout prefix props in
  (tag (header view) = "h1" ↔ path = "/") ∧
  (tag (header view) = "h3" ↔ path ≠ "/") ∧
  to (home (header view)) = "/" ∧
  text (home (header view)) = shown (title props).
Proof.
  intros Hpath view. unfold view. rewrite Layout_tag, Layout_home, Hpath.
  case_bool_decide as Hroot.
  - apply append_cancel in Hroot. split_and!; by try split.
  - assert (path ≠ "/") by (by intros ->). split_and!; by try split.
Qed.

Lemma Layout_header_level_witness :
  let props := {| location := {| pathname := "/blog/what-is-rafter/" |};
                  title := Some "Rafter Blog";
                  children := tt;
                  wide := false |} in
  let view := Layout "/blog" props in
  (tag (header view) = "h1" ↔ "/what-is-rafter/" = "/") ∧
  (tag (header view) = "h3" ↔ "/what-is-rafter/" ≠ "/") ∧
  to (home (header view)) = "/" ∧
  text (home (header view)) = shown (title props).
Proof.
  intros props.
  apply (Layout_header_level "/blog" "/what-is-rafter/" props).
  reflexivity.
Defined.

(** X12: through [wrapPageElement] a page stands in two layouts, its
    own inside the wrapper's.  The two headers are of the same level
    and both layouts end in the newsletter form, but only the inner
    header shows the site title: the wrapper's has no text. *)
Theorem wrapped_page_has_two_layouts (prefix : string)
    (index_props : Site.PageProps Index.Data unit)
    (post_props : Site.PageProps BlogPost.Data BlogPost.PageContext) :
  (let outer := Site.wrapPageElement prefix
                  (Site.index_element prefix index_props) index_props in
   tag (header outer) = tag (header (content outer)) ∧
   text (home (header outer)) = "" ∧
   text (home (header (content outer)))
     = Index.siteTitle (Site.data index_props) ∧
   form outer = form (content outer) ∧
   maxWidth outer = maxWidth (content outer)) ∧
  (∀ element, Site.post_element prefix post_props = Some element →
   let outer := Site.wrapPageElement prefix element post_props in
   tag (header outer) = tag (header (content outer)) ∧
   text (home (header outer)) = "" ∧
   text (home (header (content outer)))
     = BlogPost.siteTitle (Site.data post_props) ∧
   form outer = form (content outer) ∧
   maxWidth outer = maxWidth (content outer)).
Proof.
  split.
  - intros outer. unfold outer, Site.wrapPageElement, Site.index_element.
    unfold Layout. simpl. by case_bool_decide.
  - intros element Helement outer.
    unfold Site.post_element, BlogPost.BlogPostTemplate in Helement.
    destruct (BlogPost.mdx (Site.data post_props)) as [post|];
      simpl in Helement; [|done].
    injection Helement as <-.
    unfold outer, Site.wrapPageElement, Layout. simpl. by case_bool_decide.
Qed.

End LayoutFacts.

(** ** From the index page to the post pages *)

Module CrossPageFacts.
Import QueryFacts IndexFacts NavigationFacts BlogPostFacts.


Lemma template_on_slug fmt site nodes d ctx :
  NoDup (slug_of <$> nodes) → d ∈ nodes →
  BlogPost.BlogPostTemplate
    (BlogPost.pageQuery fmt site (slug_of d) nodes) ctx
  = Some (BlogPost.render site (formatted fmt d) ctx).
Proof.
  intros Hnd Hd.
  unfold BlogPost.BlogPostTemplate, BlogPost.pageQuery;
    cbn [BlogPost.mdx BlogPost.siteTitle].
  by rewrite (mdx_of_slug nodes d Hnd Hd).
Qed.



(** X14: the index page and the post template agree on what a journal
    is.  With unique slugs, a link of the journal list leads to a page
    with the "Journal: " heading and the warning and without date; a link
    of the post list leads to a page with the date and without
    warning. *)
Theorem index_and_template_agree (fmt : string → string) (site : string)
    (nodes : list Mdx) (link : Link) (ctx : BlogPost.PageContext)
    (page : BlogPost.Page) :
  NoDup (slug_of <$> nodes) →
  BlogPost.BlogPostTemplate
    (BlogPost.pageQuery fmt site (to link) nodes) ctx = Some page →
  (link ∈ Index.journal_link
            <$> Index.box_entries
                  (Index.journals_box
                     (Index.BlogIndex (Index.pageQuery fmt site nodes))) →
   (BlogPost.h1 page).1 = "Journal: " ∧
   BlogPost.warning_box page = Some JournalWarning ∧
   BlogPost.date_line page = None) ∧
  (link ∈ Index.post_link
            <$> Index.post_entries
                  (Index.BlogIndex (Index.pageQuery fmt site nodes)) →
   (BlogPost.h1 page).1 = "" ∧
   BlogPost.warning_box page = None ∧
   is_Some (BlogPost.date_line page)).
Proof.
  intros Hnd Hpage.
  unfold Index.BlogIndex, Index.Journals, Index.pageQuery;
    cbn [Index.post_entries Index.journals_box Index.box_entries
         Index.posts Index.journals].
  rewrite <-!list_fmap_compose.
  split; intros (d & -> & Hd)%list_elem_of_fmap; simpl in Hpage.
  - apply elem_of_journals in Hd as [Hd Hty].
    rewrite (template_on_slug _ _ _ _ _ Hnd Hd) in Hpage.
    injection Hpage as <-. cbn [BlogPost.render BlogPost.h1
      BlogPost.warning_box BlogPost.date_line].
    assert (BlogPost.isJournal (formatted fmt d) = true) as ->; [|done].
    by apply isJournal_true.
  - apply elem_of_posts in Hd as [Hd Hty].
    rewrite (template_on_slug _ _ _ _ _ Hnd Hd) in Hpage.
    injection Hpage as <-. cbn [BlogPost.render BlogPost.h1
      BlogPost.warning_box BlogPost.date_line].
    assert (BlogPost.isJournal (formatted fmt d) = false) as ->;
      [by apply isJournal_false|]. by split_and!.
Qed.

Lemma index_and_template_agree_witness :
  let link := {| to := "/building-commands-integration/"; rel := None;
                 text := "Building Commands Integration" |} in
  let ctx := {| BlogPost.slug := "/building-commands-integration/";
                BlogPost.previous := None; BlogPost.next := None |} in
  let page := BlogPost.render "Rafter Blog"
                Content.building_commands_integration ctx in
  (link ∈ Index.journal_link
            <$> Index.box_entries
                  (Index.journals_box
                     (Index.BlogIndex
                        (Index.pageQuery id "Rafter Blog" Content.blog))) →
   (BlogPost.h1 page).1 = "Journal: " ∧
   BlogPost.warning_box page = Some JournalWarning ∧
   BlogPost.date_line page = None) ∧
  (link ∈ Index.post_link
            <$> Index.post_entries
                  (Index.BlogIndex
                     (Index.pageQuery id "Rafter Blog" Content.blog)) →
   (BlogPost.h1 page).1 = "" ∧
   BlogPost.warning_box page = None ∧
   is_Some (BlogPost.date_line page)).
Proof.
  intros link ctx page.
  apply (index_and_template_agree id "Rafter Blog" Content.blog link ctx page).
  - apply (bool_decide_unpack _). vm_compute. exact I.
  - reflexivity.
Defined.

End CrossPageFacts.

(** ** The order of date strings and the order of dates *)

Module DatesFacts.
Import Dates.

Lemma digit_range c d : digit c = Some d → (0 ≤ d ≤ 9)%Z.
Proof. unfold digit. case_bool_decide; intros [= <-]; lia. Qed.

Lemma digit_compare c c' d d' :
  digit c = Some d → digit c' = Some d' → Ascii.compare c c' = (d ?= d')%Z.
Proof.
  unfold digit, Ascii.compare.
  repeat case_bool_decide; intros [= <-] [= <-].
  rewrite <-N2Z.inj_compare.
  destruct (Z.compare_spec (Z.of_N (Ascii.N_of_ascii c))
                           (Z.of_N (Ascii.N_of_ascii c')));
    symmetry; [apply Z.compare_eq_iff|apply Z.compare_lt_iff
              |apply Z.compare_gt_iff]; lia.
Qed.

Lemma ascii_compare_refl c : Ascii.compare c c = Eq.
Proof. unfold Ascii.compare. apply N.compare_refl. Qed.

(** Reading two strings side by side: the larger start gives the larger
    number, and from equal starts the strings compare as the numbers
    read, then as what is left of them. *)
Lemma number_order k acc acc' s s' v v' r r' :
  number k acc s = Some (v, r) →
  number k acc' s' = Some (v', r') →
  ((acc < acc')%Z → (v < v')%Z) ∧
  (acc = acc' →
   String.compare s s'
   = match (v ?= v')%Z with Eq => String.compare r r' | c => c end).
Proof.
  revert acc acc' s s' v v' r r'.
  induction k as [|k IH]; intros acc acc' s s' v v' r r' Hs Hs';
    simpl in Hs, Hs'.
  - injection Hs as <- <-. injection Hs' as <- <-.
    split; [done|]. intros ->. by rewrite Z.compare_refl.
  - destruct s as [|c s]; [done|]. destruct s' as [|c' s']; [done|].
    destruct (digit c) as [d|] eqn:Hd; [|done].
    destruct (digit c') as [d'|] eqn:Hd'; [|done].
    simpl in Hs, Hs'.
    pose proof (digit_range _ _ Hd). pose proof (digit_range _ _ Hd').
    split.
    + intros Hlt. apply (IH _ _ _ _ _ _ _ _ Hs Hs'). lia.
    + intros <-. simpl. rewrite (digit_compare _ _ _ _ Hd Hd').
      destruct (Z.compare_spec d d') as [->|Hlt|Hgt].
      * by apply (IH _ _ _ _ _ _ _ _ Hs Hs').
      * assert (v < v')%Z as Hv by (apply (IH _ _ _ _ _ _ _ _ Hs Hs'); lia).
        apply Z.compare_lt_iff in Hv. by rewrite Hv.
      * assert (v' < v)%Z as Hv by (apply (IH _ _ _ _ _ _ _ _ Hs' Hs); lia).
        apply Z.compare_gt_iff in Hv. by rewrite Hv.
Qed.

Lemma scan_order f acc acc' s s' v v' r r' :
  scan f acc s = Some (v, r) →
  scan f acc' s' = Some (v', r') →
  ((acc < acc')%Z → (v < v')%Z) ∧
  (acc = acc' →
   String.compare s s'
   = match (v ?= v')%Z with Eq => String.compare r r' | c => c end).
Proof.
  revert acc acc' s s' v v' r r'.
  induction f as [|[k|c] f IH]; intros acc acc' s s' v v' r r' Hs Hs';
    simpl in Hs, Hs'.
  - injection Hs as <- <-. injection Hs' as <- <-.
    split; [done|]. intros ->. by rewrite Z.compare_refl.
  - destruct (number k acc s) as [[w t]|] eqn:Hn; [|done].
    destruct (number k acc' s') as [[w' t']|] eqn:Hn'; [|done].
    simpl in Hs, Hs'.
    destruct (number_order _ _ _ _ _ _ _ _ _ Hn Hn') as [Hlt Heq].
    split.
    + intros Hacc. apply (IH _ _ _ _ _ _ _ _ Hs Hs'). by apply Hlt.
    + intros Hacc. rewrite (Heq Hacc).
      destruct (Z.compare_spec w w') as [->|Hw|Hw].
      * by apply (IH _ _ _ _ _ _ _ _ Hs Hs').
      * assert (v < v')%Z as Hv by by apply (IH _ _ _ _ _ _ _ _ Hs Hs').
        apply Z.compare_lt_iff in Hv. by rewrite Hv.
      * assert (v' < v)%Z as Hv by by apply (IH _ _ _ _ _ _ _ _ Hs' Hs).
        apply Z.compare_gt_iff in Hv. by rewrite Hv.
  - destruct s as [|c0 s]; [done|]. destruct s' as [|c0' s']; [done|].
    simpl in Hs, Hs'.
    case_bool_decide as Hc; [|done]. case_bool_decide as Hc'; [|done].
    subst c0 c0'. simpl in Hs, Hs'. split.
    + apply (IH _ _ _ _ _ _ _ _ Hs Hs').
    + intros Hacc. simpl. rewrite ascii_compare_refl.
      by apply (IH _ _ _ _ _ _ _ _ Hs Hs').
Qed.

(** Two strings of one spelling compare as the numbers they spell. *)
Lemma read_compare f s s' v v' :
  read f s = Some v → read f s' = Some v' →
  String.compare s s' = (v ?= v')%Z.
Proof.
  unfold read. intros Hs Hs'.
  destruct (scan f 0 s) as [[w [|? ?]]|] eqn:Hscan; try done.
  destruct (scan f 0 s') as [[w' [|? ?]]|] eqn:Hscan'; try done.
  injection Hs as ->. injection Hs' as ->.
  rewrite (proj2 (scan_order _ _ _ _ _ _ _ _ _ Hscan Hscan') eq_refl).
  by destruct (v ?= v')%Z.
Qed.

Lemma plain_stamp s v : plain s = Some v → stamp s = Some v.
Proof. unfold stamp. by intros ->. Qed.

(** In the spelling of the blog the order of the strings is the order
    of the dates. *)
Lemma plain_later_or_same a b :
  is_Some (plain a) → is_Some (plain b) →
  String.leb b a = true → later_or_same a b.
Proof.
  intros [va Ha] [vb Hb] Hle. exists va, vb.
  split_and!; [by apply plain_stamp..|].
  unfold String.leb in Hle.
  rewrite (read_compare _ _ _ _ _ Hb Ha) in Hle.
  destruct (Z.compare_spec vb va); [lia|lia|done].
Qed.

End DatesFacts.

(** ** The index query as the build runs it *)

Module BuildFacts.
Import QueryFacts IndexFacts ListingFacts DatesFacts.

Lemma accepts_typed isDate nodes :
  Build.accepts isDate nodes = true →
  ∃ d, d ∈ nodes ∧ is_Some (type_of d).
Proof.
  unfold Build.accepts. intros [Hex _]%andb_true_iff.
  apply existsb_exists in Hex as (d & Hd & Hty).
  exists d. split; [by apply list_elem_of_In|].
  by apply bool_decide_eq_true in Hty.
Qed.

Lemma accepts_dates isDate nodes d :
  Build.accepts isDate nodes = true → d ∈ nodes → isDate (date_of d) = true.
Proof.
  unfold Build.accepts. intros [_ Hall]%andb_true_iff Hd.
  rewrite forallb_forall in Hall. by apply Hall, list_elem_of_In.
Qed.

Lemma accepts_intro isDate nodes d :
  d ∈ nodes → is_Some (type_of d) →
  (∀ n, n ∈ nodes → isDate (date_of n) = true) →
  Build.accepts isDate nodes = true.
Proof.
  intros Hd Hty Hall. unfold Build.accepts. apply andb_true_iff. split.
  - apply existsb_exists. exists d.
    split; [by apply list_elem_of_In|by apply bool_decide_eq_true].
  - apply forallb_forall. intros n Hn. by apply Hall, list_elem_of_In.
Qed.

Lemma untyped_rejected isDate nodes :
  (∀ d, d ∈ nodes → type_of d = None) → Build.accepts isDate nodes = false.
Proof.
  intros Hnone. destruct (Build.accepts isDate nodes) eqn:Hacc; [|done].
  apply accepts_typed in Hacc as (d & Hd & Hty).
  rewrite (Hnone d Hd) in Hty. by destruct Hty.
Qed.

Lemma classify_Some isDate nodes posts journals :
  Build.classify isDate nodes = Some (posts, journals) →
  Build.accepts isDate nodes = true ∧
  posts = (Index.classify nodes).1 ∧ journals = (Index.classify nodes).2.
Proof.
  unfold Build.classify.
  destruct (Build.accepts isDate nodes); [|done]. by intros [= <- <-].
Qed.



(** C2, as amended: when the index query is accepted, both partitions
    are in descending order of the date strings, compared character by
    character: of two adjacent documents the one with the lower index
    has the greater or the same string.  Where both dates are spelled
    [YYYY-MM-DD HH:mm:ss] this is the order of the dates, the later or
    the same date first. *)
Theorem classify_sorted_desc (isDate : string → bool) (nodes : list Mdx)
    (posts journals : list Mdx) (i : nat) (a b : Mdx) :
  Build.classify isDate nodes = Some (posts, journals) →
  (posts !! i = Some a ∧ posts !! S i = Some b) ∨
  (journals !! i = Some a ∧ journals !! S i = Some b) →
  date_ge a b ∧
  (is_Some (Dates.plain (date_of a)) → is_Some (Dates.plain (date_of b)) →
   Dates.later_or_same (date_of a) (date_of b)).
Proof.
  intros (_ & -> & ->)%classify_Some Hab.
  assert (date_ge a b) as Hge.
  { destruct Hab as [[Ha Hb]|[Ha Hb]]; apply in_order_DESC;
      exact (Sorted_lookup_S _ _ _ _ _ (orderBy_Sorted DESC _) Ha Hb). }
  split; [done|]. intros Hpa Hpb. by apply plain_later_or_same.
Qed.

Lemma classify_sorted_desc_witness :
  let a := Content.tracking_queued_job_chains in
  let b := Content.what_is_rafter in
  date_ge a b ∧
  (is_Some (Dates.plain (date_of a)) → is_Some (Dates.plain (date_of b)) →
   Dates.later_or_same (date_of a) (date_of b)).
Proof.
  apply (classify_sorted_desc Dates.isDate Content.blog
           [Content.tracking_queued_job_chains; Content.what_is_rafter;
            Content.a_spark]
           [Content.building_commands_integration] 0).
  - reflexivity.
  - left. split; reflexivity.
Defined.

(** C2, as stated, fails: the data layer accepts dates in more than one
    spelling and orders them as strings.  [morning], dated
    2020-04-23T08:00:00, is listed in front of [what_is_rafter], dated
    2020-04-23 09:54:54, although it is the earlier of the two. *)
Lemma classify_sorted_desc_counterexample :
  ¬ (∀ nodes posts journals i a b,
       Build.classify Dates.isDate nodes = Some (posts, journals) →
       posts !! i = Some a → posts !! S i = Some b →
       Dates.later_or_same (date_of a) (date_of b)).
Proof.
  intros Hclaim.
  destruct (Hclaim Content.mixed
              [Content.morning; Content.what_is_rafter]
              [Content.building_commands_integration] 0
              Content.morning Content.what_is_rafter
              eq_refl eq_refl eq_refl) as (va & vb & Ha & Hb & Hle).
  vm_compute in Ha, Hb. injection Ha as <-. injection Hb as <-. lia.
Qed.







End BuildFacts.

(** ** The titles on the index page *)

Module IndexTitleFacts.
Import TitleFacts Index.

(** C10: on the index page every listed document, in the post list and
    in the journal list, has its link, at its own place in the list; the
    link goes to the slug of the document and shows the frontmatter
    title when there is one and it is not empty, and the slug otherwise.
    The lists have no further entries. *)
Theorem index_title_fallback (data : Data) :
  length (post_entries (BlogIndex data)) = length (posts data) ∧
  length (box_entries (journals_box (BlogIndex data)))
  = length (journals data) ∧
  ∀ (i : nat) (node : Mdx),
    (posts data !! i = Some node →
     ∃ link,
       post_link <$> post_entries (BlogIndex data) !! i = Some link ∧
       to link = slug_of node ∧
       (∀ t, title_of node = Some t → t ≠ "" → text link = t) ∧
       (title_of node = None ∨ title_of node = Some "" →
        text link = slug_of node)) ∧
    (journals data !! i = Some node →
     ∃ link,
       journal_link <$> box_entries (journals_box (BlogIndex data)) !! i
       = Some link ∧
       to link = slug_of node ∧
       (∀ t, title_of node = Some t → t ≠ "" → text link = t) ∧
       (title_of node = None ∨ title_of node = Some "" →
        text link = slug_of node)).
Proof.
  unfold BlogIndex, Journals;
    cbn [post_entries journals_box box_entries].
  rewrite !length_fmap. split_and!; [done..|].
  intros i node. split; intros Hnode;
    rewrite list_lookup_fmap, Hnode; simpl;
    (eexists; split; [done|]); simpl;
    (split; [done|]); apply or_else_spec.
Qed.

End IndexTitleFacts.

(** ** The pages as the build makes them *)

Module BuildPageFacts.
Import QueryFacts IndexFacts ListingFacts DatesFacts BuildFacts
  IndexPageFacts PostPageFacts NavigationFacts BlogPostFacts.

Lemma indexPage_Some isDate fmt site nodes page :
  Build.indexPage isDate fmt site nodes = Some page →
  Build.accepts isDate nodes = true ∧
  page = Index.BlogIndex (Index.pageQuery fmt site nodes).
Proof.
  unfold Build.indexPage, Build.indexQuery.
  destruct (Build.accepts isDate nodes); [|done]. by intros [= <-].
Qed.

Lemma accepts_sub isDate (nodes part : list Mdx) :
  Build.accepts isDate nodes = true →
  (∀ d, d ∈ part → d ∈ nodes) →
  (∃ d, d ∈ part ∧ is_Some (type_of d)) →
  Build.accepts isDate part = true.
Proof.
  intros Hacc Hsub (d & Hd & Hty). apply (accepts_intro _ _ d); [done..|].
  intros n Hn. by apply (accepts_dates _ nodes), Hsub.
Qed.

(** X1: when the index page is built, it has one entry for every
    document of the collection: the keys of the post list followed by
    the keys of the journal list are the slugs of the collection, each
    as often as it occurs there. *)
Theorem index_lists_every_document (isDate : string → bool)
    (fmt : string → string) (site : string) (nodes : list Mdx)
    (page : Index.Page) :
  Build.indexPage isDate fmt site nodes = Some page →
  ((Index.post_key <$> Index.post_entries page)
   ++ (Index.journal_key <$> Index.box_entries (Index.journals_box page)))%list
  ≡ₚ slug_of <$> nodes ∧
  length (Index.post_entries page)
  + length (Index.box_entries (Index.journals_box page))
  = length nodes.
Proof.
  intros (_ & ->)%indexPage_Some.
  pose proof (index_keys_Permutation fmt site nodes) as Hperm.
  simpl in Hperm. split; [exact Hperm|].
  rewrite <-(length_fmap Index.post_key), <-(length_fmap Index.journal_key),
    <-length_app.
  by rewrite Hperm, length_fmap.
Qed.

Lemma index_lists_every_document_witness :
  let page := Index.BlogIndex
                (Index.pageQuery id "Rafter Blog" Content.blog) in
  ((Index.post_key <$> Index.post_entries page)
   ++ (Index.journal_key <$> Index.box_entries (Index.journals_box page)))%list
  ≡ₚ slug_of <$> Content.blog ∧
  length (Index.post_entries page)
  + length (Index.box_entries (Index.journals_box page))
  = length Content.blog.
Proof.
  apply (index_lists_every_document Dates.isDate id "Rafter Blog"
           Content.blog).
  reflexivity.
Defined.

(** X3: the format string of the index query reaches nothing but the
    date under a post: built with two formats, the pages have the same
    keys, links and excerpts and the same journal box, and each shows
    under a post its format of the date of the document. *)
Theorem index_format_touches_dates_only (isDate : string → bool)
    (f g : string → string) (site : string) (nodes : list Mdx)
    (pf pg : Index.Page) :
  Build.indexPage isDate f site nodes = Some pf →
  Build.indexPage isDate g site nodes = Some pg →
  Index.post_key <$> Index.post_entries pf
  = Index.post_key <$> Index.post_entries pg ∧
  Index.post_link <$> Index.post_entries pf
  = Index.post_link <$> Index.post_entries pg ∧
  Index.post_excerpt <$> Index.post_entries pf
  = Index.post_excerpt <$> Index.post_entries pg ∧
  Index.journals_box pf = Index.journals_box pg ∧
  Index.post_small <$> Index.post_entries pf
  = f <$> (date_of <$> (Index.classify nodes).1) ∧
  Index.post_small <$> Index.post_entries pg
  = g <$> (date_of <$> (Index.classify nodes).1).
Proof.
  intros (_ & ->)%indexPage_Some (_ & ->)%indexPage_Some.
  unfold Index.BlogIndex, Index.Journals, Index.pageQuery;
    cbn [Index.post_entries Index.journals_box Index.posts Index.journals].
  split_and!; [| | |f_equal| |]; rewrite <-!list_fmap_compose;
    by apply list_fmap_ext.
Qed.

Lemma index_format_touches_dates_only_witness :
  let pf := Index.BlogIndex
              (Index.pageQuery id "Rafter Blog" Content.blog) in
  let pg := Index.BlogIndex
              (Index.pageQuery (λ _, "some day") "Rafter Blog" Content.blog) in
  Index.post_key <$> Index.post_entries pf
  = Index.post_key <$> Index.post_entries pg ∧
  Index.post_link <$> Index.post_entries pf
  = Index.post_link <$> Index.post_entries pg ∧
  Index.post_excerpt <$> Index.post_entries pf
  = Index.post_excerpt <$> Index.post_entries pg ∧
  Index.journals_box pf = Index.journals_box pg ∧
  Index.post_small <$> Index.post_entries pf
  = id <$> (date_of <$> (Index.classify Content.blog).1) ∧
  Index.post_small <$> Index.post_entries pg
  = (λ _, "some day") <$> (date_of <$> (Index.classify Content.blog).1).
Proof.
  apply (index_format_touches_dates_only Dates.isDate id (λ _, "some day")
           "Rafter Blog" Content.blog); reflexivity.
Defined.

(** X4: when the index query is accepted, within a partition every
    document stands in front of all documents whose date string is
    smaller, not only of its neighbour: for [i < j] the string at [i] is
    the greater or the same.  Where both dates are spelled
    [YYYY-MM-DD HH:mm:ss] the document at [i] has the later or the same
    date. *)
Theorem classify_newest_first (isDate : string → bool) (nodes : list Mdx)
    (posts journals : list Mdx) (i j : nat) (a b : Mdx) :
  Build.classify isDate nodes = Some (posts, journals) →
  i < j →
  (posts !! i = Some a ∧ posts !! j = Some b) ∨
  (journals !! i = Some a ∧ journals !! j = Some b) →
  date_ge a b ∧
  (is_Some (Dates.plain (date_of a)) → is_Some (Dates.plain (date_of b)) →
   Dates.later_or_same (date_of a) (date_of b)).
Proof.
  intros (_ & -> & ->)%classify_Some Hij Hab.
  assert (date_ge a b) as Hge.
  { destruct Hab as [[Ha Hb]|[Ha Hb]]; apply in_order_DESC;
      exact (StronglySorted_lookup_lt _ _ _ _ _ _
               (orderBy_StronglySorted DESC _) Hij Ha Hb). }
  split; [done|]. intros Hpa Hpb. by apply plain_later_or_same.
Qed.

Lemma classify_newest_first_witness :
  let a := Content.tracking_queued_job_chains in
  let b := Content.a_spark in
  date_ge a b ∧
  (is_Some (Dates.plain (date_of a)) → is_Some (Dates.plain (date_of b)) →
   Dates.later_or_same (date_of a) (date_of b)).
Proof.
  apply (classify_newest_first Dates.isDate Content.blog
           [Content.tracking_queued_job_chains; Content.what_is_rafter;
            Content.a_spark]
           [Content.building_commands_integration] 0 2).
  - reflexivity.
  - lia.
  - left. split; reflexivity.
Defined.

(** X5: running the index query again on its own results.  On the
    journals it returns the same journals and no posts, unless there are
    none, when it is rejected.  On the posts it returns the same posts
    and no journals when one of them has a type, and is rejected when
    none has. *)
Theorem classify_again (isDate : string → bool) (nodes : list Mdx)
    (posts journals : list Mdx) :
  Build.classify isDate nodes = Some (posts, journals) →
  (journals ≠ [] → Build.classify isDate journals = Some ([], journals)) ∧
  (journals = [] → Build.classify isDate journals = None) ∧
  ((∃ d, d ∈ posts ∧ is_Some (type_of d)) →
   Build.classify isDate posts = Some (posts, [])) ∧
  ((∀ d, d ∈ posts → type_of d = None) →
   Build.classify isDate posts = None).
Proof.
  intros (Hacc & -> & ->)%classify_Some.
  destruct (allMdx_allMdx_other DESC "journal" nodes) as [H1 H2].
  split_and!.
  - intros Hj. unfold Build.classify.
    rewrite (accepts_sub isDate nodes).
    + unfold Index.classify. simpl.
      by rewrite allMdx_allMdx_same, H2.
    + done.
    + intros d Hd. by apply elem_of_journals in Hd as [? _].
    + destruct ((Index.classify nodes).2) as [|d l] eqn:Hl; [done|].
      exists d. split; [left|].
      assert (d ∈ (Index.classify nodes).2) as Hd by (rewrite Hl; left).
      apply elem_of_journals in Hd as [_ ->]. by eexists.
  - by intros ->.
  - intros Hty. unfold Build.classify.
    rewrite (accepts_sub isDate nodes).
    + unfold Index.classify. simpl.
      by rewrite allMdx_allMdx_same, H1.
    + done.
    + intros d Hd. by apply elem_of_posts in Hd as [? _].
    + done.
  - intros Hnone. unfold Build.classify. by rewrite untyped_rejected.
Qed.

Lemma classify_again_witness :
  let posts := [Content.tracking_queued_job_chains; Content.what_is_rafter;
                Content.a_spark] in
  let journals := [Content.building_commands_integration] in
  (journals ≠ [] →
   Build.classify Dates.isDate journals = Some ([], journals)) ∧
  (journals = [] → Build.classify Dates.isDate journals = None) ∧
  ((∃ d, d ∈ posts ∧ is_Some (type_of d)) →
   Build.classify Dates.isDate posts = Some (posts, [])) ∧
  ((∀ d, d ∈ posts → type_of d = None) →
   Build.classify Dates.isDate posts = None).
Proof.
  apply (classify_again Dates.isDate Content.blog). reflexivity.
Defined.

(** X7: when the index page is built, the journal box is on it, with
    its heading and the warning; its list is empty exactly when no
    document of the collection is a journal. *)
Theorem index_journal_box (isDate : string → bool) (fmt : string → string)
    (site : string) (nodes : list Mdx) (page : Index.Page) :
  Build.indexPage isDate fmt site nodes = Some page →
  Index.box_heading (Index.journals_box page) = "Journals" ∧
  Index.box_warning (Index.journals_box page) = JournalWarning ∧
  (Index.box_entries (Index.journals_box page) = [] ↔
   ∀ d, d ∈ nodes → type_of d ≠ Some "journal").
Proof.
  intros (_ & ->)%indexPage_Some. split_and!; [done..|].
  unfold Index.BlogIndex, Index.Journals, Index.pageQuery;
    cbn [Index.journals_box Index.box_entries Index.journals].
  split.
  - intros Hnil d Hd Hj.
    assert (d ∈ (Index.classify nodes).2) as Hin by by apply elem_of_journals.
    apply fmap_nil_inv, fmap_nil_inv in Hnil.
    rewrite Hnil in Hin. by apply elem_of_nil in Hin.
  - intros Hnone.
    destruct ((Index.classify nodes).2) as [|d l] eqn:Hj; [done|].
    assert (d ∈ (Index.classify nodes).2) as Hin by (rewrite Hj; left).
    apply elem_of_journals in Hin as [Hin Hty]. by destruct (Hnone d Hin).
Qed.

Lemma index_journal_box_witness :
  let page := Index.BlogIndex
                (Index.pageQuery id "Rafter Blog"
                   [Content.draft_two; Content.a_spark]) in
  Index.box_heading (Index.journals_box page) = "Journals" ∧
  Index.box_warning (Index.journals_box page) = JournalWarning ∧
  (Index.box_entries (Index.journals_box page) = [] ↔
   ∀ d, d ∈ [Content.draft_two; Content.a_spark] →
        type_of d ≠ Some "journal").
Proof.
  apply (index_journal_box Dates.isDate id "Rafter Blog"
           [Content.draft_two; Content.a_spark]).
  reflexivity.
Defined.

End BuildPageFacts.

(** ** The post page as the build makes it *)

Module BuildPostFacts.
Import BuildFacts PostPageFacts NavigationFacts BlogPostFacts.

Lemma postQuery_Some isDate fmt prune site slug nodes data :
  Build.postQuery isDate fmt prune site slug nodes = Some data →
  Build.accepts isDate nodes = true ∧
  data = {| BlogPost.siteTitle := site;
            BlogPost.mdx := (λ n, formatted fmt (Build.pruned prune n))
                              <$> Query.mdx slug nodes |}.
Proof.
  unfold Build.postQuery.
  destruct (Build.accepts isDate nodes); [|done]. by intros [= <-].
Qed.

(** X8: the build gets no post page exactly when the query of the
    template is rejected or no document of the collection has the slug
    asked for; a page it does get is that of a document of the
    collection with this slug.  In particular it gets none when no
    document has a type. *)
Theorem template_needs_its_document (isDate : string → bool)
    (fmt : string → string) (prune : nat → Mdx → string) (site : string)
    (slug : string) (nodes : list Mdx) (ctx : BlogPost.PageContext) :
  let result := Build.postPage isDate fmt prune site slug nodes ctx in
  (result = None ↔
   Build.postQuery isDate fmt prune site slug nodes = None ∨
   slug ∉ slug_of <$> nodes) ∧
  (∀ page, result = Some page →
     ∃ d, d ∈ nodes ∧ slug_of d = slug ∧
          page = BlogPost.render site
                   (formatted fmt (Build.pruned prune d)) ctx) ∧
  ((∀ d, d ∈ nodes → type_of d = None) → result = None).
Proof.
  unfold Build.postPage, Build.postQuery. split_and!.
  - rewrite <-mdx_None.
    destruct (Build.accepts isDate nodes); simpl; [|by split; [left|]].
    unfold BlogPost.BlogPostTemplate; cbn [BlogPost.mdx BlogPost.siteTitle].
    destruct (Query.mdx slug nodes); simpl; split; try done.
    + by intros [|].
    + by right.
  - intros page Hpage.
    destruct (Build.accepts isDate nodes); simpl in Hpage; [|done].
    unfold BlogPost.BlogPostTemplate in Hpage;
      cbn [BlogPost.mdx BlogPost.siteTitle] in Hpage.
    destruct (Query.mdx slug nodes) as [d|] eqn:Hd; simpl in Hpage; [|done].
    apply mdx_Some in Hd as [Hin Hslug].
    injection Hpage as <-. by exists d.
  - intros Hnone. by rewrite untyped_rejected.
Qed.

(** X9: with unique slugs, when the query of the template is accepted
    for the slug of a document, the page is the page of this very
    document: its title in the heading, its excerpt of length 160 as
    description, its body, and for a post its formatted date. *)
Theorem template_finds_the_document (isDate : string → bool)
    (fmt : string → string) (prune : nat → Mdx → string) (site : string)
    (nodes : list Mdx) (d : Mdx) (ctx : BlogPost.PageContext)
    (data : BlogPost.Data) :
  NoDup (slug_of <$> nodes) →
  d ∈ nodes →
  Build.postQuery isDate fmt prune site (slug_of d) nodes = Some data →
  ∃ page,
    BlogPost.BlogPostTemplate data ctx = Some page ∧
    Build.postPage isDate fmt prune site (slug_of d) nodes ctx = Some page ∧
    page = BlogPost.render site (formatted fmt (Build.pruned prune d)) ctx ∧
    (BlogPost.h1 page).2 = title_of d ∧
    BlogPost.seo_description page = prune 160 d ∧
    BlogPost.mdx_body page = body d ∧
    (type_of d ≠ Some "journal" →
     BlogPost.date_line page = Some (fmt (date_of d))).
Proof.
  intros Hnd Hd Hdata. unfold Build.postPage. rewrite Hdata. simpl.
  apply postQuery_Some in Hdata as [_ ->].
  unfold BlogPost.BlogPostTemplate; cbn [BlogPost.mdx BlogPost.siteTitle].
  rewrite (mdx_of_slug nodes d Hnd Hd). simpl.
  eexists. split_and!; try done.
  intros Hty. cbn [BlogPost.render BlogPost.date_line].
  assert (BlogPost.isJournal (formatted fmt (Build.pruned prune d)) = false)
    as ->; [|done].
  by apply isJournal_false.
Qed.

Lemma template_finds_the_document_witness :
  let d := Content.what_is_rafter in
  let prune := λ (k : nat) (n : Mdx), excerpt n in
  let ctx := {| BlogPost.slug := slug_of d;
                BlogPost.previous := None; BlogPost.next := None |} in
  let data := {| BlogPost.siteTitle := "Rafter Blog";
                 BlogPost.mdx := Some d |} in
  ∃ page,
    BlogPost.BlogPostTemplate data ctx = Some page ∧
    Build.postPage Dates.isDate id prune "Rafter Blog" (slug_of d)
      Content.blog ctx = Some page ∧
    page = BlogPost.render "Rafter Blog"
             (formatted id (Build.pruned prune d)) ctx ∧
    (BlogPost.h1 page).2 = title_of d ∧
    BlogPost.seo_description page = prune 160 d ∧
    BlogPost.mdx_body page = body d ∧
    (type_of d ≠ Some "journal" →
     BlogPost.date_line page = Some (id (date_of d))).
Proof.
  intros d prune ctx data.
  apply (template_finds_the_document Dates.isDate id prune "Rafter Blog"
           Content.blog d ctx data).
  - apply (bool_decide_unpack _). vm_compute. exact I.
  - unfold Content.blog. apply list_elem_of_here.
  - reflexivity.
Defined.

End BuildPostFacts.

(** ** The blog's own documents, run through the build *)

Module BuildExamples.
Import Content.

Example blog_is_accepted :
  Build.classify Dates.isDate blog
  = Some ([tracking_queued_job_chains; what_is_rafter; a_spark],
          [building_commands_integration]).
Proof. reflexivity. Qed.

(** Without a document that has a type the query is rejected. *)
Example untyped_is_rejected : Build.classify Dates.isDate untyped = None.
Proof. reflexivity. Qed.

Example empty_is_rejected : Build.classify Dates.isDate [] = None.
Proof. reflexivity. Qed.

(** The two spellings side by side: the strings decide. *)
Example mixed_by_string :
  Build.classify Dates.isDate mixed
  = Some ([morning; what_is_rafter], [building_commands_integration]).
Proof. reflexivity. Qed.

Example stamps :
  Dates.stamp (date_of morning) = Some 20200423080000%Z ∧
  Dates.stamp (date_of what_is_rafter) = Some 20200423095454%Z.
Proof. split; reflexivity. Qed.

Example untyped_has_no_post_page :
  Build.postPage Dates.isDate id (λ _ n, excerpt n) "Rafter Blog"
    "/a-spark/" untyped
    {| BlogPost.slug := "/a-spark/";
       BlogPost.previous := None; BlogPost.next := None |}
  = None.
Proof. reflexivity. Qed.

End BuildExamples.
